(** * cfninit: the [CfninitStack] infrastructure declaration

    The repository consists of one construct class, [CfninitStack]
    (lib/cfninit-stack.ts), and the application entry point that instantiates
    it once (bin/cfninit.ts).  The constructor is straight-line code: every
    [new X(this, id, props)] registers a construct under the stack, and three
    calls mutate the security group registered before them.

    The embedding keeps that shape.  The constructor is a program in a small
    state-and-error monad [Synth] whose state is the stack's construct tree;
    a construct that is passed around ([vpc], [securityGroup],
    [autoScalingGroup]) is a reference into that tree, so that the object
    shared by two users is one entry of the store.

    aws-cdk-lib is a dependency of the repository, not part of it.  Each
    construct is kept as the props it was declared with, each props record
    has the fields the stack sets, and the library functions the stack
    calls are modelled after the library where a property depends on what
    they return ([Peer.anyIpv4], the rules of a security group, the
    defaults of [InitService.enable], the binding of a recipe's packages
    and the order in which a recipe is applied, the creation policy
    rendered from [Signals], the deletion policy of a removal policy, the
    subnets and NAT gateways of a [Vpc]).  The expansion of a construct into the platform's
    resources is not modelled: the synthesized output is the construct tree.
    What the platform does with that output is in [CloudFormation], under
    its own heading. *)

From stdpp Require Import base option list strings.
From Stdlib Require Import ZArith Lia.

Open Scope string_scope.

(* ================================================================== *)
(** ** Core: durations, removal policies, secret values *)

Module Duration.

Inductive TimeUnit := Seconds | Minutes | Hours | Days.

Record t := make { amount : Z; unit : TimeUnit }.

Definition seconds (n : Z) : t := make n Seconds.
Definition minutes (n : Z) : t := make n Minutes.

Definition inSeconds (u : TimeUnit) : Z :=
  match u with
  | Seconds => 1
  | Minutes => 60
  | Hours => 3600
  | Days => 86400
  end.

(** The amounts the stack uses are small non-negative integers (the
    library rejects a negative amount when the duration is made). *)
Definition toSeconds (d : t) : Z := amount d * inSeconds (unit d).

End Duration.

Module RemovalPolicy.

Inductive t := DESTROY | RETAIN | SNAPSHOT | RETAIN_ON_UPDATE_OR_DELETE.

End RemovalPolicy.

(** aws-cdk-lib, CfnResource.applyRemovalPolicy: the deletion policy
    attribute a removal policy is rendered to. *)
Module CfnDeletionPolicy.

Inductive t := DELETE | RETAIN | RETAIN_EXCEPT_ON_CREATE | SNAPSHOT.

Definition ofRemovalPolicy (p : RemovalPolicy.t) : t :=
  match p with
  | RemovalPolicy.DESTROY => DELETE
  | RemovalPolicy.RETAIN => RETAIN
  | RemovalPolicy.SNAPSHOT => SNAPSHOT
  | RemovalPolicy.RETAIN_ON_UPDATE_OR_DELETE => RETAIN_EXCEPT_ON_CREATE
  end.

End CfnDeletionPolicy.

Module SecretValue.

(** aws-cdk-lib: a secret value is either a literal carried by the
    program ([unsafePlainText]) or a lookup that the platform performs
    ([secretsManager]: by secret name). *)
Inductive t :=
| unsafePlainText (secret : string)
| secretsManager (secretId : string).

(** The text that stands for the value in the template: the literal
    itself, or a dynamic reference naming the secret. *)
Definition render (v : t) : string :=
  match v with
  | unsafePlainText s => s
  | secretsManager id => "{{resolve:secretsmanager:" ++ id ++ ":SecretString:::}}"
  end.

Definition isReference (v : t) : bool :=
  match v with
  | unsafePlainText _ => false
  | secretsManager _ => true
  end.

End SecretValue.

(* ================================================================== *)
(** ** References into the construct tree *)

Inductive Kind :=
| KVpc | KSecurityGroup | KRole | KKeyPair | KLaunchTemplate
| KAutoScalingGroup | KBucket | KPipelineProject
| KServerDeploymentGroup | KPipeline.

(** A reference to a construct of kind [k]: the id under which it was
    registered in the stack. *)
Record Ref (k : Kind) := MkRef { path : string }.
Arguments MkRef {k} _.
Arguments path {k} _.

(* ================================================================== *)
(** ** aws-ec2 *)

Module SubnetType.

Inductive t := PUBLIC | PRIVATE_WITH_EGRESS | PRIVATE_ISOLATED.

Definition eqb (a b : t) : bool :=
  match a, b with
  | PUBLIC, PUBLIC | PRIVATE_WITH_EGRESS, PRIVATE_WITH_EGRESS
  | PRIVATE_ISOLATED, PRIVATE_ISOLATED => true
  | _, _ => false
  end.

End SubnetType.

Module IpAddresses.

Inductive t := cidr (cidrBlock : string).

End IpAddresses.

Module SubnetConfiguration.

Record t := make {
  cidrMask : nat;
  name : string;
  subnetType : SubnetType.t;
}.

End SubnetConfiguration.

Module SubnetSelection.

Record t := make { subnetType : SubnetType.t }.

End SubnetSelection.

Module Vpc.

Record Props := make {
  vpcName : string;
  ipAddresses : IpAddresses.t;
  maxAzs : nat;
  natGateways : nat;
  subnetConfiguration : list SubnetConfiguration.t;
}.

(** aws-cdk-lib: the availability zones the network spans are the
    stack's zones cut down to [maxAzs]. *)
Definition availabilityZones (stackZones : list string) (p : Props) : list string :=
  take (maxAzs p) stackZones.

(** One subnet per configuration entry and availability zone: for
    each entry in turn, one in every zone. *)
Definition subnets (stackZones : list string) (p : Props)
  : list (string * SubnetConfiguration.t) :=
  cfg ← subnetConfiguration p;
  zone ← availabilityZones stackZones p;
  [(zone, cfg)].

(** aws-cdk-lib, determineNatGatewayCount: the requested count, capped
    by the number of zones; gateways need a public subnet to live in
    ([None]: the library throws). *)
Definition natGatewayCount (azCount : nat) (p : Props) : option nat :=
  let hasPublicSubnets :=
    existsb (fun c => SubnetType.eqb (SubnetConfiguration.subnetType c) SubnetType.PUBLIC)
            (subnetConfiguration p) in
  let count := Nat.min (natGateways p) azCount in
  if (0 <? count)%nat && negb hasPublicSubnets then None else Some count.

End Vpc.

(** A security-group rule as it is kept on the group. *)
Module Rule.

Record t := make {
  cidrIp : string;
  ipProtocol : string;
  fromPort : option nat;
  toPort : option nat;
  description : string;
}.

#[global] Instance eq_dec : EqDecision t.
Proof. solve_decision. Defined.

End Rule.

Module Peer.

(** The only peers the stack uses are IPv4 ranges. *)
Inductive IPeer := CidrIPv4 (cidrIp : string).

Definition ipv4 (cidrIp : string) : IPeer := CidrIPv4 cidrIp.

(** aws-cdk-lib: any IPv4 address is the range 0.0.0.0/0. *)
Definition anyIpv4 : IPeer := CidrIPv4 "0.0.0.0/0".

Definition cidrIp (p : IPeer) : string :=
  match p with CidrIPv4 c => c end.

End Peer.

Module Port.

Record t := make {
  protocol : string;
  fromPort : option nat;
  toPort : option nat;
}.

Definition tcp (port : nat) : t := make "tcp" (Some port) (Some port).

End Port.

Module SecurityGroup.

Record Props := make {
  securityGroupName : string;
  vpc : Ref KVpc;
  allowAllOutbound : bool;
}.

Definition ALLOW_ALL_RULE : Rule.t :=
  Rule.make "0.0.0.0/0" "-1" None None "Allow all outbound traffic by default".

Definition MATCH_NO_TRAFFIC : Rule.t :=
  Rule.make "255.255.255.255/32" "icmp" (Some 252) (Some 86) "Disallow all traffic".

(** aws-cdk-lib: the group as the library keeps it, its props and the
    rules added so far. *)
Record t := mk {
  props : Props;
  directIngressRules : list Rule.t;
  directEgressRules : list Rule.t;
}.

(** A new group has no ingress rule, and the egress rule its
    [allowAllOutbound] flag asks for. *)
Definition create (p : Props) : t :=
  mk p [] [if allowAllOutbound p then ALLOW_ALL_RULE else MATCH_NO_TRAFFIC].

(** aws-cdk-lib: two rules are the same rule when they agree on the
    peer, the protocol and the ports; the description does not count. *)
Definition ingressRulesEqual (a b : Rule.t) : bool :=
  bool_decide (Rule.cidrIp a = Rule.cidrIp b)
  && bool_decide (Rule.ipProtocol a = Rule.ipProtocol b)
  && bool_decide (Rule.fromPort a = Rule.fromPort b)
  && bool_decide (Rule.toPort a = Rule.toPort b).

Definition hasIngressRule (g : t) (rule : Rule.t) : bool :=
  existsb (fun r => ingressRulesEqual r rule) (directIngressRules g).

(** addDirectIngressRule: a rule already on the group is not added
    again. *)
Definition addDirectIngressRule (g : t) (rule : Rule.t) : t :=
  if hasIngressRule g rule then g
  else mk (props g) (directIngressRules g ++ [rule]) (directEgressRules g).

Definition ingressRuleOf (peer : Peer.IPeer) (connection : Port.t) (description : string)
  : Rule.t :=
  Rule.make (Peer.cidrIp peer) (Port.protocol connection)
            (Port.fromPort connection) (Port.toPort connection) description.

End SecurityGroup.

(** *** cfn-init: the declarative bootstrap recipe *)

Module InitServiceRestartHandle.

(** A handle collects what triggers a restart of the services holding
    it; a new handle has no trigger. *)
Record t := make {
  commands : list string;
  files : list string;
  sources : list string;
  packages : list (string * string);
}.

Definition new : t := make [] [] [] [].

End InitServiceRestartHandle.

Module InitElementType.

Inductive t := PACKAGE | GROUP | USER | SOURCE | FILE | COMMAND | SERVICE.

#[global] Instance eq_dec : EqDecision t.
Proof. solve_decision. Defined.

(** cfn-init applies the sections of a config in this order, whatever
    the order in which the elements were given. *)
Definition processingOrder : list t :=
  [PACKAGE; GROUP; USER; SOURCE; FILE; COMMAND; SERVICE].

End InitElementType.

(** The operating system of the instances a recipe is bound for. *)
Module InitPlatform.

Inductive t := WINDOWS | LINUX.

#[global] Instance eq_dec : EqDecision t.
Proof. solve_decision. Defined.

End InitPlatform.

Module InitPackage.

Record t := make {
  type : string;
  versions : list string;
  packageName : string;
}.

Definition yum (packageName : string) : t := make "yum" [] packageName.

(** aws-cdk-lib: binding a package to a group fails when an MSI
    package meets a platform other than Windows (or another type meets
    Windows), and when a package that is neither RPM nor MSI has an empty
    name.  [None]: the package binds. *)
Definition bindError (platform : InitPlatform.t) (p : t) : option string :=
  if xorb (bool_decide (type p = "msi")) (bool_decide (platform = InitPlatform.WINDOWS))
  then Some (if bool_decide (type p = "msi")
             then "MSI installers are only supported on Windows systems."
             else "Windows only supports the MSI package type")
  else if bool_decide (packageName p = "") && negb (bool_decide (type p ∈ ["rpm"; "msi"]))
  then Some "Package name must be specified for all package types besides RPM and MSI."
  else None.

End InitPackage.

Module InitCommand.

Inductive t :=
| shell (command : string)
| argv (command : list string).

Definition shellCommand (command : string) : t := shell command.

End InitCommand.

Module InitFile.

Inductive Content :=
| asset (path : string)
| inline (content : string).

Record t := make { fileName : string; content : Content }.

Definition fromAsset (targetFileName path : string) : t :=
  make targetFileName (asset path).

End InitFile.

Module InitService.

Record Options := mkOptions {
  enabled : option bool;
  ensureRunning : option bool;
  serviceRestartHandle : option InitServiceRestartHandle.t;
}.

Record t := make {
  serviceName : string;
  options : Options;
}.

(** aws-cdk-lib: enable and start the service; [enabled] defaults to
    true, and [ensureRunning] to [enabled]. *)
Definition enable (serviceName : string) (options : Options) : t :=
  make serviceName
       (mkOptions (Some (default true (enabled options)))
                  (Some (default (default true (enabled options)) (ensureRunning options)))
                  (serviceRestartHandle options)).

End InitService.

Inductive InitElement :=
| Package (e : InitPackage.t)
| Command (e : InitCommand.t)
| File (e : InitFile.t)
| Service (e : InitService.t).

Coercion Package : InitPackage.t >-> InitElement.
Coercion Command : InitCommand.t >-> InitElement.
Coercion File : InitFile.t >-> InitElement.
Coercion Service : InitService.t >-> InitElement.

Definition elementType (e : InitElement) : InitElementType.t :=
  match e with
  | Package _ => InitElementType.PACKAGE
  | Command _ => InitElementType.COMMAND
  | File _ => InitElementType.FILE
  | Service _ => InitElementType.SERVICE
  end.

(** Of the elements the stack uses, only a package can fail to bind. *)
Definition elementBindError (platform : InitPlatform.t) (e : InitElement) : option string :=
  match e with
  | Package p => InitPackage.bindError platform p
  | Command _ | File _ | Service _ => None
  end.

Module InitConfig.

Record t := make { elements : list InitElement }.

(** aws-cdk-lib renders a config by element type, and cfn-init applies
    it section by section: the elements of each type in turn, those of one
    type in the order they were given.  (Elements of one type that share a
    key, such as two packages of one name, are merged into one entry by
    the library; the merge is not modelled.) *)
Definition applied (c : t) : list InitElement :=
  type ← InitElementType.processingOrder;
  filter (fun e => elementType e = type) (elements c).

End InitConfig.

Module CloudFormationInit.

Record t := make {
  configSets : list (string * list string);
  configs : list (string * InitConfig.t);
}.

Definition fromConfigSets (configSets : list (string * list string))
  (configs : list (string * InitConfig.t)) : t :=
  make configSets configs.

(** aws-cdk-lib: one config, run by the default config set. *)
Definition fromConfig (config : InitConfig.t) : t :=
  fromConfigSets [("default", ["config"])] [("config", config)].

Definition fromElements (elements : list InitElement) : t :=
  fromConfig (InitConfig.make elements).

(** The configs the config sets run, in their order. *)
Definition configsRun (i : t) : list InitConfig.t :=
  '(_, names) ← configSets i;
  name ← names;
  '(n, config) ← configs i;
  if bool_decide (n = name) then [config] else [].

(** The elements of the recipe as they were declared: in the order of
    the arguments of [fromElements]. *)
Definition declaredElements (i : t) : list InitElement :=
  configsRun i ≫= InitConfig.elements.

(** The steps of the recipe as they are applied on an instance. *)
Definition appliedSteps (i : t) : list InitElement :=
  configsRun i ≫= InitConfig.applied.

(** aws-cdk-lib: the first error binding the recipe's elements, if
    any. *)
Definition bindError (platform : InitPlatform.t) (i : t) : option string :=
  head (omap (elementBindError platform) (configs i ≫= fun nc => InitConfig.elements nc.2)).

End CloudFormationInit.

Module AmazonLinuxGeneration.

Inductive t := AMAZON_LINUX | AMAZON_LINUX_2 | AMAZON_LINUX_2022 | AMAZON_LINUX_2023.

End AmazonLinuxGeneration.

Module AmazonLinuxImage.

Record t := make { generation : AmazonLinuxGeneration.t }.

Definition osType (image : t) : InitPlatform.t := InitPlatform.LINUX.

End AmazonLinuxImage.

Module InstanceType.

Record t := make { instanceTypeIdentifier : string }.

End InstanceType.

Module KeyPair.

Record Props := make { keyPairName : string }.

End KeyPair.

Module LaunchTemplate.

Record Props := make {
  instanceType : InstanceType.t;
  machineImage : AmazonLinuxImage.t;
  securityGroup : Ref KSecurityGroup;
  role : Ref KRole;
  keyPair : Ref KKeyPair;
}.

End LaunchTemplate.

(* ================================================================== *)
(** ** aws-iam *)

Module ServicePrincipal.

Record t := make { service : string }.

End ServicePrincipal.

Module ManagedPolicy.

Inductive t := AwsManaged (managedPolicyName : string).

Definition fromAwsManagedPolicyName (managedPolicyName : string) : t :=
  AwsManaged managedPolicyName.

End ManagedPolicy.

Module PolicyStatement.

Record t := make {
  actions : list string;
  resources : list string;
}.

End PolicyStatement.

Module PolicyDocument.

Record t := make { statements : list PolicyStatement.t }.

End PolicyDocument.

Module Role.

(** [assumedBy] is one service principal or a composite of several. *)
Record Props := make {
  assumedBy : list ServicePrincipal.t;
  managedPolicies : list ManagedPolicy.t;
  inlinePolicies : list (string * PolicyDocument.t);
}.

End Role.

Definition CompositePrincipal (principals : list ServicePrincipal.t)
  : list ServicePrincipal.t := principals.

(* ================================================================== *)
(** ** aws-autoscaling *)

Module Signals.

Record SignalsOptions := mkOptions {
  minSuccessPercentage : Z;
  timeout : Duration.t;
}.

Inductive t :=
| waitForAll (options : SignalsOptions)
| waitForMinCapacity (options : SignalsOptions)
| waitForCount (count : nat) (options : SignalsOptions).

Definition options (s : t) : SignalsOptions :=
  match s with
  | waitForAll o | waitForMinCapacity o | waitForCount _ o => o
  end.

(** aws-cdk-lib: what the group tells the signals about itself when
    they are rendered. *)
Record RenderSignalsOptions := mkRender {
  desiredCapacity : option nat;
  minCapacity : option nat;
}.

(** The creation policy attached to the group. *)
Record CfnCreationPolicy := mkPolicy {
  minSuccessfulInstancesPercent : Z;
  resourceSignalCount : option nat;
  resourceSignalTimeout : Duration.t;
}.

Definition doRender (s : t) (count : option nat) : CfnCreationPolicy :=
  mkPolicy (minSuccessPercentage (options s)) count (timeout (options s)).

Definition renderCreationPolicy (s : t) (renderOptions : RenderSignalsOptions)
  : CfnCreationPolicy :=
  match s with
  | waitForAll _ =>
      doRender s (match desiredCapacity renderOptions with
                  | Some n => Some n
                  | None => minCapacity renderOptions
                  end)
  | waitForMinCapacity _ => doRender s (minCapacity renderOptions)
  | waitForCount count _ => doRender s (Some count)
  end.

End Signals.

Module AutoScalingGroup.

Record Props := make {
  vpc : Ref KVpc;
  launchTemplate : Ref KLaunchTemplate;
  vpcSubnets : SubnetSelection.t;
  init : CloudFormationInit.t;
  signals : Signals.t;
  minCapacity : option nat;
  maxCapacity : option nat;
  desiredCapacity : option nat;
}.

(** aws-cdk-lib: the capacities the group hands to its signals; the
    minimum capacity defaults to 1. *)
Definition renderSignalsOptions (p : Props) : Signals.RenderSignalsOptions :=
  Signals.mkRender (desiredCapacity p) (Some (default 1%nat (minCapacity p))).

Definition creationPolicy (p : Props) : Signals.CfnCreationPolicy :=
  Signals.renderCreationPolicy (signals p) (renderSignalsOptions p).

End AutoScalingGroup.

(* ================================================================== *)
(** ** aws-s3, aws-codebuild, aws-codedeploy *)

Module Bucket.

Record Props := make {
  removalPolicy : RemovalPolicy.t;
  autoDeleteObjects : option bool;
}.

Definition deletionPolicy (p : Props) : CfnDeletionPolicy.t :=
  CfnDeletionPolicy.ofRemovalPolicy (removalPolicy p).

End Bucket.

(** The object literal given to [BuildSpec.fromObject]. *)
#[local] Set Warnings "-register-all".
Inductive Json :=
| JString (s : string)
| JArray (items : list Json)
| JObject (fields : list (string * Json)).
#[local] Set Warnings "register-all".

Module BuildSpec.

Inductive t := ObjectBuildSpec (spec : Json).

Definition fromObject (value : Json) : t := ObjectBuildSpec value.

End BuildSpec.

Module LinuxBuildImage.

Inductive t := STANDARD_7_0 | AMAZON_LINUX_2_4 | AMAZON_LINUX_2_5.

End LinuxBuildImage.

Module BuildEnvironment.

Record t := make { buildImage : LinuxBuildImage.t }.

End BuildEnvironment.

Module PipelineProject.

Record Props := make {
  environment : BuildEnvironment.t;
  buildSpec : BuildSpec.t;
}.

End PipelineProject.

Module ServerDeploymentGroup.

Record Props := make { autoScalingGroups : list (Ref KAutoScalingGroup) }.

End ServerDeploymentGroup.

(* ================================================================== *)
(** ** aws-codepipeline and its actions *)

Module Artifact.

Record t := make { artifactName : string }.

End Artifact.

Module GitHubSourceAction.

Record Props := make {
  actionName : string;
  owner : string;
  repo : string;
  branch : string;
  oauthToken : SecretValue.t;
  output : Artifact.t;
}.

End GitHubSourceAction.

Module CodeBuildAction.

Record Props := make {
  actionName : string;
  project : Ref KPipelineProject;
  input : Artifact.t;
  outputs : list Artifact.t;
}.

End CodeBuildAction.

Module CodeDeployServerDeployAction.

Record Props := make {
  actionName : string;
  input : Artifact.t;
  deploymentGroup : Ref KServerDeploymentGroup;
}.

End CodeDeployServerDeployAction.

Inductive IAction :=
| GitHubSource (p : GitHubSourceAction.Props)
| CodeBuild (p : CodeBuildAction.Props)
| CodeDeployServerDeploy (p : CodeDeployServerDeployAction.Props).

Module Action.

(** The artifacts an action consumes and produces (its
    [actionProperties.inputs] and [.outputs]). *)
Definition inputs (a : IAction) : list Artifact.t :=
  match a with
  | GitHubSource _ => []
  | CodeBuild p => [CodeBuildAction.input p]
  | CodeDeployServerDeploy p => [CodeDeployServerDeployAction.input p]
  end.

Definition outputs (a : IAction) : list Artifact.t :=
  match a with
  | GitHubSource p => [GitHubSourceAction.output p]
  | CodeBuild p => CodeBuildAction.outputs p
  | CodeDeployServerDeploy _ => []
  end.

(** The secret values an action carries. *)
Definition secrets (a : IAction) : list SecretValue.t :=
  match a with
  | GitHubSource p => [GitHubSourceAction.oauthToken p]
  | CodeBuild _ | CodeDeployServerDeploy _ => []
  end.

End Action.

Module StageProps.

Record t := make {
  stageName : string;
  actions : list IAction;
}.

End StageProps.

Module Pipeline.

Record Props := make {
  pipelineName : string;
  role : Ref KRole;
  artifactBucket : Ref KBucket;
  stages : list StageProps.t;
}.

End Pipeline.

(* ================================================================== *)
(** ** The construct tree and the synthesis monad *)

Inductive Construct :=
| AVpc (p : Vpc.Props)
| ASecurityGroup (g : SecurityGroup.t)
| ARole (p : Role.Props)
| AKeyPair (p : KeyPair.Props)
| ALaunchTemplate (p : LaunchTemplate.Props)
| AnAutoScalingGroup (p : AutoScalingGroup.Props)
| ABucket (p : Bucket.Props)
| APipelineProject (p : PipelineProject.Props)
| AServerDeploymentGroup (p : ServerDeploymentGroup.Props)
| APipeline (p : Pipeline.Props).

Definition kindOf (c : Construct) : Kind :=
  match c with
  | AVpc _ => KVpc
  | ASecurityGroup _ => KSecurityGroup
  | ARole _ => KRole
  | AKeyPair _ => KKeyPair
  | ALaunchTemplate _ => KLaunchTemplate
  | AnAutoScalingGroup _ => KAutoScalingGroup
  | ABucket _ => KBucket
  | APipelineProject _ => KPipelineProject
  | AServerDeploymentGroup _ => KServerDeploymentGroup
  | APipeline _ => KPipeline
  end.

#[global] Instance Kind_eq_dec : EqDecision Kind.
Proof. solve_decision. Defined.

(** A stack: its id and its children, in the order they were
    constructed. *)
Record Stack := MkStack {
  stackId : string;
  children : list (string * Construct);
}.

Fixpoint tryFindChild (id : string) (cs : list (string * Construct)) : option Construct :=
  match cs with
  | [] => None
  | (i, c) :: rest => if String.eqb i id then Some c else tryFindChild id rest
  end.

(** Replace the child registered under [id]. *)
Fixpoint setChild (id : string) (c : Construct) (cs : list (string * Construct))
  : list (string * Construct) :=
  match cs with
  | [] => []
  | (i, c0) :: rest =>
      if String.eqb i id then (i, c) :: rest else (i, c0) :: setChild id c rest
  end.

Inductive Result (A : Type) :=
| Ok (a : A)
| Throw (message : string).
Arguments Ok {A} _.
Arguments Throw {A} _.

(** A step of the constructor: it reads and updates the stack under
    construction, or throws. *)
Definition Synth (A : Type) : Type := Stack -> Result (A * Stack).

#[global] Instance Synth_ret : MRet Synth := fun A a s => Ok (a, s).

#[global] Instance Synth_bind : MBind Synth := fun A B f m s =>
  match m s with
  | Ok (a, s') => f a s'
  | Throw e => Throw e
  end.

(** [new X(this, id, ...)]: the construct is added to the stack's
    children; a second construct under the same id is an error. *)
Definition addChild (k : Kind) (id : string) (c : Construct) : Synth (Ref k) := fun s =>
  match tryFindChild id (children s) with
  | Some _ =>
      Throw ("There is already a Construct with name '" ++ id ++ "' in " ++ stackId s)
  | None => Ok (MkRef id, MkStack (stackId s) (children s ++ [(id, c)]))
  end.

Definition new_Vpc id p := addChild KVpc id (AVpc p).
Definition new_SecurityGroup id p :=
  addChild KSecurityGroup id (ASecurityGroup (SecurityGroup.create p)).
Definition new_Role id p := addChild KRole id (ARole p).
Definition new_KeyPair id p := addChild KKeyPair id (AKeyPair p).
Definition new_LaunchTemplate id p := addChild KLaunchTemplate id (ALaunchTemplate p).

(** aws-cdk-lib: a group that is given a recipe binds it for the
    operating system of its launch template's image, and throws when an
    element does not bind. *)
Definition applyCloudFormationInit (p : AutoScalingGroup.Props) : Synth () := fun s =>
  match tryFindChild (path (AutoScalingGroup.launchTemplate p)) (children s) with
  | Some (ALaunchTemplate template) =>
      let platform := AmazonLinuxImage.osType (LaunchTemplate.machineImage template) in
      match CloudFormationInit.bindError platform (AutoScalingGroup.init p) with
      | Some e => Throw e
      | None => Ok ((), s)
      end
  | _ => Throw ("not a launch template: " ++ path (AutoScalingGroup.launchTemplate p))
  end.

Definition new_AutoScalingGroup id p : Synth (Ref KAutoScalingGroup) :=
  group ← addChild KAutoScalingGroup id (AnAutoScalingGroup p);
  applyCloudFormationInit p;;
  mret group.

Definition new_Bucket id p := addChild KBucket id (ABucket p).
Definition new_PipelineProject id p := addChild KPipelineProject id (APipelineProject p).
Definition new_ServerDeploymentGroup id p :=
  addChild KServerDeploymentGroup id (AServerDeploymentGroup p).
Definition new_Pipeline id p := addChild KPipeline id (APipeline p).

(** [securityGroup.addIngressRule(peer, connection, description)]: the
    group behind the reference is updated in place. *)
Definition addIngressRule (securityGroup : Ref KSecurityGroup)
  (peer : Peer.IPeer) (connection : Port.t) (description : string) : Synth () := fun s =>
  match tryFindChild (path securityGroup) (children s) with
  | Some (ASecurityGroup g) =>
      let g' := SecurityGroup.addDirectIngressRule g
                  (SecurityGroup.ingressRuleOf peer connection description) in
      Ok ((), MkStack (stackId s)
                      (setChild (path securityGroup) (ASecurityGroup g') (children s)))
  | _ => Throw ("not a security group: " ++ path securityGroup)
  end.

(* ================================================================== *)
(** ** lib/cfninit-stack.ts *)

(** The constructor of [CfninitStack], statement by statement.  A
    [new] nested in the props of another is run before the construct that
    takes it, in the order of the props, as the source evaluates it.

    The names of the packages the bootstrap recipe installs are a
    parameter, so that stacks that differ in them can be compared; the
    repository's stack is the instance at [["nginx"]] ([CfninitStack]
    below), where the recipe's first element is [InitPackage.yum "nginx"]
    as in the source.  For a list with an empty name the constructor
    throws, when the group binds its recipe. *)
Definition CfninitStack_packages (packages : list string) : Synth () :=
  (* VPC *)
  vpc ← new_Vpc "VPC" {|
    Vpc.vpcName := "cfninit-vpc";
    Vpc.ipAddresses := IpAddresses.cidr "10.0.0.0/16";
    Vpc.maxAzs := 1;
    Vpc.natGateways := 1;
    Vpc.subnetConfiguration := [
      {| SubnetConfiguration.cidrMask := 24;
         SubnetConfiguration.name := "Public";
         SubnetConfiguration.subnetType := SubnetType.PUBLIC |}
    ];
  |};

  (* Security Group *)
  securityGroup ← new_SecurityGroup "SecurityGroup" {|
    SecurityGroup.securityGroupName := "cfninit-sg";
    SecurityGroup.vpc := vpc;
    SecurityGroup.allowAllOutbound := true;
  |};

  addIngressRule securityGroup Peer.anyIpv4 (Port.tcp 443) "allow https access";;
  addIngressRule securityGroup Peer.anyIpv4 (Port.tcp 80) "allow http access";;
  addIngressRule securityGroup (Peer.ipv4 "0.0.0.0/0") (Port.tcp 22) "allow ssh access";;

  (* InstanceTemplate *)
  role ← new_Role "Role" {|
    Role.assumedBy := [ServicePrincipal.make "ec2.amazonaws.com"];
    Role.managedPolicies := [
      ManagedPolicy.fromAwsManagedPolicyName "AmazonSSMManagedInstanceCore"
    ];
    Role.inlinePolicies := [];
  |};
  keyPair ← new_KeyPair "CfnInitKeyPair" {|
    KeyPair.keyPairName := "CfnInitKeyPair";
  |};
  launchTemplate ← new_LaunchTemplate "LaunchTemplate" {|
    LaunchTemplate.instanceType := InstanceType.make "t2.micro";
    LaunchTemplate.machineImage := {|
      AmazonLinuxImage.generation := AmazonLinuxGeneration.AMAZON_LINUX_2023;
    |};
    LaunchTemplate.securityGroup := securityGroup;
    LaunchTemplate.role := role;
    LaunchTemplate.keyPair := keyPair;
  |};
  autoScalingGroup ← new_AutoScalingGroup "AutoScalingGroup" {|
    AutoScalingGroup.vpc := vpc;
    AutoScalingGroup.launchTemplate := launchTemplate;
    AutoScalingGroup.vpcSubnets := {| SubnetSelection.subnetType := SubnetType.PUBLIC |};
    AutoScalingGroup.init := CloudFormationInit.fromElements (
      (Package ∘ InitPackage.yum <$> packages) ++ [
      Command (InitCommand.shellCommand
        "sudo yum install php php-fpm php-xml php-mbstring php-zip php-bcmath php-tokenizer ruby wget sqlite -y");
      File (InitFile.fromAsset
        "/etc/nginx/conf.d/laravel.conf" (* Destination *)
        "cfninit/laravel.conf" (* Where the file is located *));
      Service (InitService.enable "nginx" {|
        InitService.enabled := None;
        InitService.ensureRunning := None;
        InitService.serviceRestartHandle := Some InitServiceRestartHandle.new;
      |})
    ]);
    AutoScalingGroup.signals := Signals.waitForCount 1 {|
      Signals.minSuccessPercentage := 80;
      Signals.timeout := Duration.minutes 5;
    |};
    AutoScalingGroup.minCapacity := None;
    AutoScalingGroup.maxCapacity := None;
    AutoScalingGroup.desiredCapacity := None;
  |};

  let sourceArtifact := Artifact.make "SourceArtifact" in
  let buildArtifact := Artifact.make "BuildArtifact" in

  pipelineRole ← new_Role "PipelineRole" {|
    Role.assumedBy := CompositePrincipal [
      ServicePrincipal.make "codebuild.amazonaws.com";
      ServicePrincipal.make "codepipeline.amazonaws.com"
    ];
    Role.managedPolicies := [];
    Role.inlinePolicies := [
      ("CdkDeployPermissions", {|
        PolicyDocument.statements := [
          {| PolicyStatement.actions := ["sts:AssumeRole"];
             PolicyStatement.resources := ["arn:aws:iam::*:role/cdk-*"] |}
        ];
      |})
    ];
  |};
  artifactBucket ← new_Bucket "ArtifactBucket" {|
    Bucket.removalPolicy := RemovalPolicy.DESTROY;
    Bucket.autoDeleteObjects := None;
  |};
  buildProject ← new_PipelineProject "BuildProject" {|
    PipelineProject.environment := {|
      BuildEnvironment.buildImage := LinuxBuildImage.AMAZON_LINUX_2_5;
    |};
    PipelineProject.buildSpec := BuildSpec.fromObject (JObject [
      ("version", JString "0.2");
      ("phases", JObject [
        ("install", JObject [
          ("runtime-versions", JObject [
            ("nodejs", JString "20.x");
            ("php", JString "8.3")
          ]);
          ("commands", JArray [
            JString "npm install";
            JString "curl -sS https://getcomposer.org/installer | php";
            JString "php composer.phar install --no-dev --optimize-autoloader"
          ])
        ]);
        ("build", JObject [
          ("commands", JArray [JString "npm run build"])
        ])
      ]);
      ("artifacts", JObject [
        ("base-directory", JString "./");
        ("files", JArray [JString "**/*"])
      ])
    ]);
  |};
  deploymentGroup ← new_ServerDeploymentGroup "DeploymentGroup" {|
    ServerDeploymentGroup.autoScalingGroups := [autoScalingGroup];
  |};
  new_Pipeline "Pipeline" {|
    Pipeline.pipelineName := "Laravel-pipeline";
    Pipeline.role := pipelineRole;
    Pipeline.artifactBucket := artifactBucket;
    Pipeline.stages := [
      {| StageProps.stageName := "Source";
         StageProps.actions := [
           GitHubSource {|
             GitHubSourceAction.actionName := "Source";
             GitHubSourceAction.owner := "RizaHKhan";
             GitHubSourceAction.repo := "laravel-app-for-cdk";
             GitHubSourceAction.branch := "master";
             GitHubSourceAction.oauthToken := SecretValue.secretsManager "github-token";
             GitHubSourceAction.output := sourceArtifact;
           |}
         ] |};
      {| StageProps.stageName := "Build";
         StageProps.actions := [
           CodeBuild {|
             CodeBuildAction.actionName := "Build";
             CodeBuildAction.project := buildProject;
             CodeBuildAction.input := sourceArtifact;
             CodeBuildAction.outputs := [buildArtifact];
           |}
         ] |};
      {| StageProps.stageName := "Deploy";
         StageProps.actions := [
           CodeDeployServerDeploy {|
             CodeDeployServerDeployAction.actionName := "DeployToEc2";
             CodeDeployServerDeployAction.input := buildArtifact;
             CodeDeployServerDeployAction.deploymentGroup := deploymentGroup;
           |}
         ] |}
    ];
  |};;
  mret ().

Definition CfninitStack : Synth () := CfninitStack_packages ["nginx"].

(** bin/cfninit.ts: [new CfninitStack(app, "CfninitStack", {})].  The
    constructor is run on a new stack of that id, the only one the
    repository instantiates the class under. *)
Definition construct (constructor : Synth ()) : Result Stack :=
  match constructor (MkStack "CfninitStack" []) with
  | Ok (_, s) => Ok s
  | Throw e => Throw e
  end.

Definition synth : Result Stack := construct CfninitStack.

Definition synth_packages (packages : list string) : Result Stack :=
  construct (CfninitStack_packages packages).

(* ================================================================== *)
(** ** Reading a synthesized stack *)

(** The construct behind a reference, when the stack has one of the
    reference's kind under that id. *)
Definition deref {k : Kind} (st : Stack) (r : Ref k) : option Construct :=
  c ← tryFindChild (path r) (children st);
  if bool_decide (kindOf c = k) then Some c else None.

(** The position of a child among the stack's children: the order of
    construction. *)
Definition position (id : string) (st : Stack) : option nat :=
  fst <$> list_find (fun ic => ic.1 = id) (children st).

Definition declaredBefore (a b : string) (st : Stack) : Prop :=
  exists i j, position a st = Some i /\ position b st = Some j /\ (i < j)%nat.

Definition asVpc (c : Construct) : option Vpc.Props :=
  match c with AVpc p => Some p | _ => None end.
Definition asSecurityGroup (c : Construct) : option SecurityGroup.t :=
  match c with ASecurityGroup g => Some g | _ => None end.
Definition asAutoScalingGroup (c : Construct) : option AutoScalingGroup.Props :=
  match c with AnAutoScalingGroup p => Some p | _ => None end.
Definition asBucket (c : Construct) : option Bucket.Props :=
  match c with ABucket p => Some p | _ => None end.
Definition asPipeline (c : Construct) : option Pipeline.Props :=
  match c with APipeline p => Some p | _ => None end.

(** All constructs of one sort in the stack, with their ids. *)
Definition constructs {A} (as_ : Construct -> option A) (st : Stack) : list (string * A) :=
  omap (fun ic => pair ic.1 <$> as_ ic.2) (children st).

Definition vpcs := constructs asVpc.
Definition securityGroups := constructs asSecurityGroup.
Definition autoScalingGroups := constructs asAutoScalingGroup.
Definition buckets := constructs asBucket.
Definition pipelines := constructs asPipeline.

(** The secret values that occur anywhere in the stack: those of the
    pipelines' actions. *)
Definition stackSecrets (st : Stack) : list SecretValue.t :=
  '(_, p) ← pipelines st;
  stage ← Pipeline.stages p;
  action ← StageProps.actions stage;
  Action.secrets action.

(** *** Sections of the synthesized output *)

(** The network section: the network block and the traffic filter
    attached to it. *)
Definition networkSection (st : Stack) : list (string * Construct) :=
  filter (fun ic => kindOf ic.2 ∈ [KVpc; KSecurityGroup]) (children st).

(** The pipeline section: the pipeline, the role it runs under, and
    the bucket, build project and deployment group it is made of. *)
Definition pipelineRoles (st : Stack) : list string :=
  (fun ip => path (Pipeline.role ip.2)) <$> pipelines st.

Definition pipelineSection (st : Stack) : list (string * Construct) :=
  filter (fun ic =>
            kindOf ic.2 ∈ [KPipeline; KBucket; KPipelineProject; KServerDeploymentGroup]
            \/ ic.1 ∈ pipelineRoles st)
         (children st).

(* ================================================================== *)
(** ** Reading the rest of the declaration *)

Definition asRole (c : Construct) : option Role.Props :=
  match c with ARole p => Some p | _ => None end.
Definition asLaunchTemplate (c : Construct) : option LaunchTemplate.Props :=
  match c with ALaunchTemplate p => Some p | _ => None end.
Definition asPipelineProject (c : Construct) : option PipelineProject.Props :=
  match c with APipelineProject p => Some p | _ => None end.

Definition roles := constructs asRole.
Definition launchTemplates := constructs asLaunchTemplate.
Definition pipelineProjects := constructs asPipelineProject.

#[global] Instance ServicePrincipal_eq_dec : EqDecision ServicePrincipal.t.
Proof. solve_decision. Defined.

#[global] Instance Artifact_eq_dec : EqDecision Artifact.t.
Proof. solve_decision. Defined.

(** *** Stages, actions and artifacts *)

Module ActionCategory.

Inductive t := SOURCE | BUILD | DEPLOY.

#[global] Instance eq_dec : EqDecision t.
Proof. solve_decision. Defined.

End ActionCategory.

(** The category and the name of each of the three actions the stack
    uses. *)
Definition actionCategory (a : IAction) : ActionCategory.t :=
  match a with
  | GitHubSource _ => ActionCategory.SOURCE
  | CodeBuild _ => ActionCategory.BUILD
  | CodeDeployServerDeploy _ => ActionCategory.DEPLOY
  end.

Definition actionName (a : IAction) : string :=
  match a with
  | GitHubSource p => GitHubSourceAction.actionName p
  | CodeBuild p => CodeBuildAction.actionName p
  | CodeDeployServerDeploy p => CodeDeployServerDeployAction.actionName p
  end.

Definition stageInputs (stage : StageProps.t) : list Artifact.t :=
  action ← StageProps.actions stage; Action.inputs action.

Definition stageOutputs (stage : StageProps.t) : list Artifact.t :=
  action ← StageProps.actions stage; Action.outputs action.

(** Every stage consumes only artifacts that are [available]: produced
    by a stage before it. *)
Fixpoint artifactsFlowForward (available : list Artifact.t) (stages : list StageProps.t)
  : bool :=
  match stages with
  | [] => true
  | stage :: rest =>
      forallb (fun a => bool_decide (a ∈ available)) (stageInputs stage)
      && artifactsFlowForward (available ++ stageOutputs stage) rest
  end.

(** *** The build specification *)

(** Reading the object literal: a field of an object ([None] when the
    value is not an object or has no such field), a path of fields, a
    string, and an array of strings. *)
Definition field (key : string) (j : Json) : option Json :=
  match j with
  | JObject fields =>
      (fun found => found.2.2) <$> list_find (fun kv : string * Json => kv.1 = key) fields
  | _ => None
  end.

Definition fieldAt (keys : list string) (j : Json) : option Json :=
  foldl (fun o key => o ≫= field key) (Some j) keys.

Definition keysOf (j : Json) : option (list string) :=
  match j with
  | JObject fields => Some fields.*1
  | _ => None
  end.

Definition asString (j : Json) : option string :=
  match j with JString s => Some s | _ => None end.

Definition asStrings (j : Json) : option (list string) :=
  match j with
  | JArray items => mapM asString items
  | _ => None
  end.

Definition specOf (b : BuildSpec.t) : Json :=
  match b with BuildSpec.ObjectBuildSpec spec => spec end.

(* ================================================================== *)
(** ** The platform

    The orchestrating platform consumes the synthesized output.  None of
    it is code of the repository; the two rules below are the ones the
    repository's documentation states about it. *)

Module CloudFormation.

(** A signal an instance sends back while its group is being created:
    when it arrived, in seconds since creation started, and whether it
    reports success. *)
Record Signal := mkSignal { arrival : Z; success : bool }.

Inductive Status := CREATE_COMPLETE | CREATE_FAILED.

(** The number of success signals a policy asks for: its percentage of
    the signal count, rounded up. *)
Definition quorum (policy : Signals.CfnCreationPolicy) : Z :=
  let count := Z.of_nat (default 1%nat (Signals.resourceSignalCount policy)) in
  (count * Signals.minSuccessfulInstancesPercent policy + 99) / 100.

Definition inTime (policy : Signals.CfnCreationPolicy) (s : Signal) : bool :=
  (arrival s <=? Duration.toSeconds (Signals.resourceSignalTimeout policy))%Z.

Definition successesInTime (policy : Signals.CfnCreationPolicy) (signals : list Signal) : Z :=
  Z.of_nat (length (filter (fun s => success s && inTime policy s) signals)).

(** Modelled from the spec: how the platform settles the creation of a
    group under a creation policy is not code of the repository.  The
    creation has failed when the quorum of success signals is not met
    before the timeout. *)
Definition creationOutcome (policy : Signals.CfnCreationPolicy) (signals : list Signal)
  : Status :=
  if (quorum policy <=? successesInTime policy signals)%Z
  then CREATE_COMPLETE else CREATE_FAILED.

(** The account's secrets, by name. *)
Definition SecretsManager := string -> option string.

(** Modelled from the spec: the platform resolves a secret reference
    when the pipeline executes; a literal needs no lookup. *)
Definition resolve (secrets : SecretsManager) (v : SecretValue.t) : option string :=
  match v with
  | SecretValue.unsafePlainText s => Some s
  | SecretValue.secretsManager id => secrets id
  end.

Inductive DeleteStatus := DELETE_COMPLETE | DELETE_FAILED | DELETE_SKIPPED.

(** What becomes of a bucket holding [objects] when its stack is
    deleted.  This is the platform's rule, after its documentation, and
    not code of the repository: a bucket whose deletion policy is Delete is
    deleted only if it is empty, which [autoDeleteObjects] arranges by
    emptying it first; under any other deletion policy the bucket is left
    in place. *)
Definition deleteBucket (bucket : Bucket.Props) (objects : list string) : DeleteStatus :=
  match Bucket.deletionPolicy bucket with
  | CfnDeletionPolicy.DELETE =>
      if default false (Bucket.autoDeleteObjects bucket) || bool_decide (objects = [])
      then DELETE_COMPLETE else DELETE_FAILED
  | _ => DELETE_SKIPPED
  end.

End CloudFormation.

(* ================================================================== *)
(** ** The construct tree: registering and updating children *)

Section ConstructTree.

Implicit Types (id : string) (c : Construct) (cs : list (string * Construct)).

Lemma tryFindChild_app id cs cs' :
  tryFindChild id (cs ++ cs') =
  match tryFindChild id cs with
  | Some c => Some c
  | None => tryFindChild id cs'
  end.
Proof.
  induction cs as [|[i c0] cs IH]; simpl; [done|].
  by destruct (String.eqb i id).
Qed.

Lemma tryFindChild_None id cs : tryFindChild id cs = None <-> id ∉ cs.*1.
Proof.
  induction cs as [|[i c0] cs IH]; simpl.
  - split; [intros _; apply not_elem_of_nil | done].
  - rewrite not_elem_of_cons. destruct (String.eqb_spec i id) as [->|Hne].
    + split; [done | intros [? _]; done].
    + rewrite IH. split; [intros ?; split; [congruence | done] | by intros [_ ?]].
Qed.

(** A construct registered under a fresh id goes last and is found
    under that id. *)
Lemma addChild_fresh k id c s :
  tryFindChild id (children s) = None ->
  addChild k id c s = Ok (MkRef id, MkStack (stackId s) (children s ++ [(id, c)])).
Proof. intros H. unfold addChild. by rewrite H. Qed.

(** A second construct under an id that is taken throws. *)
Lemma addChild_duplicate k id c s :
  is_Some (tryFindChild id (children s)) ->
  exists e, addChild k id c s = Throw e.
Proof. intros [c0 H]. unfold addChild. rewrite H. eauto. Qed.

(** What was registered stays registered, unchanged. *)
Lemma addChild_keeps k id c s r s' id' c' :
  addChild k id c s = Ok (r, s') ->
  tryFindChild id' (children s) = Some c' ->
  tryFindChild id' (children s') = Some c'.
Proof.
  unfold addChild. destruct (tryFindChild id (children s)); [done|].
  intros [= _ <-] H. simpl. by rewrite tryFindChild_app, H.
Qed.

Lemma setChild_ids id c cs : (setChild id c cs).*1 = cs.*1.
Proof.
  induction cs as [|[i c0] cs IH]; simpl; [done|].
  destruct (String.eqb i id); csimpl; [done | by rewrite IH].
Qed.

Lemma tryFindChild_setChild_ne id id' c cs :
  id <> id' -> tryFindChild id' (setChild id c cs) = tryFindChild id' cs.
Proof.
  intros Hne. induction cs as [|[i c0] cs IH]; simpl; [done|].
  destruct (String.eqb_spec i id) as [->|Hi]; simpl.
  - by destruct (String.eqb_spec id id').
  - by rewrite IH.
Qed.

(** Adding an ingress rule touches the security group only. *)
Lemma addIngressRule_frame sg peer connection description s s' id' :
  addIngressRule sg peer connection description s = Ok ((), s') ->
  id' <> path sg ->
  (children s').*1 = (children s).*1
  /\ tryFindChild id' (children s') = tryFindChild id' (children s).
Proof.
  unfold addIngressRule.
  destruct (tryFindChild (path sg) (children s)) as [[]|]; try done.
  intros [= <-] Hne. simpl. split.
  - apply setChild_ids.
  - by apply tryFindChild_setChild_ne.
Qed.

End ConstructTree.

Lemma ingressRulesEqual_refl rule : SecurityGroup.ingressRulesEqual rule rule = true.
Proof.
  unfold SecurityGroup.ingressRulesEqual.
  by rewrite !bool_decide_eq_true_2.
Qed.

(** A rule that is on the group already is not added a second time. *)
Lemma addDirectIngressRule_idempotent g rule :
  SecurityGroup.addDirectIngressRule (SecurityGroup.addDirectIngressRule g rule) rule
  = SecurityGroup.addDirectIngressRule g rule.
Proof.
  unfold SecurityGroup.addDirectIngressRule.
  destruct (SecurityGroup.hasIngressRule g rule) eqn:Hhas; [by rewrite Hhas|].
  unfold SecurityGroup.hasIngressRule. simpl.
  rewrite existsb_app. simpl. rewrite ingressRulesEqual_refl.
  by rewrite orb_true_r.
Qed.

(* ================================================================== *)
(** ** The constructor on the repository's input *)

(** The repository's stack is the instance at the package nginx. *)
Lemma synth_is_the_nginx_instance : synth_packages ["nginx"] = synth.
Proof. reflexivity. Qed.

(** The constructs the constructor registers have distinct ids. *)
Lemma synth_ids_NoDup st : synth = Ok st -> NoDup (children st).*1.
Proof.
  intros Hst. vm_compute in Hst. injection Hst as <-.
  apply (bool_decide_unpack _). by vm_compute.
Qed.

(* ================================================================== *)
(** ** The pipeline *)

(** C1: the pipeline of [CfninitStack] has exactly three stages, named
    Source, Build and Deploy in this order; the Deploy stage has a single
    action, whose deployment group lists exactly one auto-scaling group:
    the one the stack declared before it. *)
Theorem pipeline_stages_and_deploy_target :
  exists st pipeline deploy action group target asg,
    synth = Ok st
    /\ pipelines st = [("Pipeline", pipeline)]
    /\ StageProps.stageName <$> Pipeline.stages pipeline = ["Source"; "Build"; "Deploy"]
    /\ Pipeline.stages pipeline !! 2%nat = Some deploy
    /\ StageProps.actions deploy = [CodeDeployServerDeploy action]
    /\ deref st (CodeDeployServerDeployAction.deploymentGroup action)
       = Some (AServerDeploymentGroup group)
    /\ ServerDeploymentGroup.autoScalingGroups group = [target]
    /\ deref st target = Some (AnAutoScalingGroup asg)
    /\ autoScalingGroups st = [(path target, asg)]
    /\ declaredBefore (path target)
         (path (CodeDeployServerDeployAction.deploymentGroup action)) st
    /\ declaredBefore (path target) "Pipeline" st.
Proof.
  do 7 eexists. split; [vm_compute; reflexivity|].
  do 8 (split; [reflexivity|]).
  split.
  - exists 5%nat, 9%nat. split; [reflexivity | split; [reflexivity | lia]].
  - exists 5%nat, 10%nat. split; [reflexivity | split; [reflexivity | lia]].
Qed.

(** C5: one artifact is handed from each stage to the next.  Each stage
    has one action; the Source action takes no input and produces one
    artifact, which is the Build action's only input; the Build action
    produces one artifact, which is the Deploy action's only input; the
    Deploy action produces none.  The stages come in this fixed order.
    (The artifact handed to Build is named SourceArtifact, the one handed
    to Deploy BuildArtifact.) *)
Theorem artifact_flows_source_build_deploy :
  exists st pipeline source build deploy handedToBuild handedToDeploy,
    synth = Ok st
    /\ pipelines st = [("Pipeline", pipeline)]
    /\ Pipeline.stages pipeline =
       [StageProps.make "Source" [source];
        StageProps.make "Build" [build];
        StageProps.make "Deploy" [deploy]]
    /\ Action.inputs source = []
    /\ Action.outputs source = [handedToBuild]
    /\ Action.inputs build = [handedToBuild]
    /\ Action.outputs build = [handedToDeploy]
    /\ Action.inputs deploy = [handedToDeploy]
    /\ Action.outputs deploy = []
    /\ handedToBuild = Artifact.make "SourceArtifact"
    /\ handedToDeploy = Artifact.make "BuildArtifact".
Proof.
  do 7 eexists. split; [vm_compute; reflexivity|].
  repeat split; reflexivity.
Qed.

(** C10 as stated fails: the bucket is declared with the DESTROY
    removal policy, but it is not deleted with the stack while it holds an
    artifact, since the declaration does not ask for its objects to be
    deleted first. *)
Lemma artifact_bucket_holding_an_artifact_is_not_deleted :
  exists st pipeline bucket,
    synth = Ok st
    /\ pipelines st = [("Pipeline", pipeline)]
    /\ deref st (Pipeline.artifactBucket pipeline) = Some (ABucket bucket)
    /\ Bucket.removalPolicy bucket = RemovalPolicy.DESTROY
    /\ CloudFormation.deleteBucket bucket ["Laravel-pipeline/BuildArtif/artifact.zip"]
       = CloudFormation.DELETE_FAILED
    /\ CloudFormation.deleteBucket bucket ["Laravel-pipeline/BuildArtif/artifact.zip"]
       <> CloudFormation.DELETE_COMPLETE.
Proof.
  do 3 eexists. split; [vm_compute; reflexivity|].
  do 4 (split; [reflexivity|]).
  discriminate.
Qed.

(** C10, amended: the pipeline's artifact bucket is the stack's only
    bucket; it is declared with the DESTROY removal policy, which is
    rendered as the deletion policy Delete, not Retain, and without
    [autoDeleteObjects].  So the bucket is deleted with the stack when it
    is empty, and its deletion fails while it holds artifacts. *)
Theorem artifact_bucket_is_deleted_only_when_empty :
  exists st pipeline bucket,
    synth = Ok st
    /\ pipelines st = [("Pipeline", pipeline)]
    /\ deref st (Pipeline.artifactBucket pipeline) = Some (ABucket bucket)
    /\ buckets st = [(path (Pipeline.artifactBucket pipeline), bucket)]
    /\ Bucket.removalPolicy bucket = RemovalPolicy.DESTROY
    /\ Bucket.autoDeleteObjects bucket = None
    /\ Bucket.deletionPolicy bucket = CfnDeletionPolicy.DELETE
    /\ Bucket.deletionPolicy bucket <> CfnDeletionPolicy.RETAIN
    /\ CloudFormation.deleteBucket bucket [] = CloudFormation.DELETE_COMPLETE
    /\ forall object objects,
         CloudFormation.deleteBucket bucket (object :: objects)
         = CloudFormation.DELETE_FAILED.
Proof.
  do 3 eexists. split; [vm_compute; reflexivity|].
  do 6 (split; [reflexivity|]).
  split; [discriminate|].
  split; [reflexivity|].
  intros object objects. reflexivity.
Qed.

(* ================================================================== *)
(** ** The network and the traffic filter *)

(** C4: the stack declares exactly one network block.  Its subnet
    configuration is a single entry, of public type; it spans a single
    availability zone and asks for one NAT gateway, so that whatever zones
    the stack offers (at least one), it has one public subnet, in the first
    zone, and one NAT gateway. *)
Theorem one_vpc_one_public_subnet_one_nat_gateway :
  exists st vpc tier,
    synth = Ok st
    /\ vpcs st = [("VPC", vpc)]
    /\ Vpc.subnetConfiguration vpc = [tier]
    /\ SubnetConfiguration.subnetType tier = SubnetType.PUBLIC
    /\ Vpc.maxAzs vpc = 1%nat
    /\ Vpc.natGateways vpc = 1%nat
    /\ forall zone zones,
         Vpc.availabilityZones (zone :: zones) vpc = [zone]
         /\ Vpc.subnets (zone :: zones) vpc = [(zone, tier)]
         /\ Vpc.natGatewayCount (length (Vpc.availabilityZones (zone :: zones) vpc)) vpc
            = Some 1%nat.
Proof.
  do 3 eexists. split; [vm_compute; reflexivity|].
  repeat split; try reflexivity.
Qed.

(** C2: the stack's security group has exactly three ingress rules, for
    the ports 443, 80 and 22; each is a TCP rule for that single port whose
    source is the unrestricted IPv4 range 0.0.0.0/0.  The group allows all
    outbound traffic: its only egress rule lets every protocol out to
    0.0.0.0/0. *)
Theorem security_group_three_open_ingress_rules :
  exists st group,
    synth = Ok st
    /\ securityGroups st = [("SecurityGroup", group)]
    /\ length (SecurityGroup.directIngressRules group) = 3%nat
    /\ Rule.fromPort <$> SecurityGroup.directIngressRules group
       = [Some 443; Some 80; Some 22]%nat
    /\ Forall (fun rule =>
                 Rule.cidrIp rule = "0.0.0.0/0"
                 /\ Rule.cidrIp rule = Peer.cidrIp Peer.anyIpv4
                 /\ Rule.ipProtocol rule = "tcp"
                 /\ Rule.toPort rule = Rule.fromPort rule)
              (SecurityGroup.directIngressRules group)
    /\ SecurityGroup.allowAllOutbound (SecurityGroup.props group) = true
    /\ SecurityGroup.directEgressRules group = [SecurityGroup.ALLOW_ALL_RULE]
    /\ Rule.cidrIp SecurityGroup.ALLOW_ALL_RULE = "0.0.0.0/0"
    /\ Rule.ipProtocol SecurityGroup.ALLOW_ALL_RULE = "-1".
Proof.
  do 2 eexists. split; [vm_compute; reflexivity|].
  split; [reflexivity|]. split; [reflexivity|]. split; [reflexivity|].
  split; [| repeat split; reflexivity].
  repeat constructor.
Qed.

(* ================================================================== *)
(** ** The compute pool: rollout signals *)

(** The count of [waitForCount] does not look at the group; the other
    two sorts of signals take it from the group's capacities. *)
Lemma waitForCount_ignores_capacity count options renderOptions :
  Signals.resourceSignalCount
    (Signals.renderCreationPolicy (Signals.waitForCount count options) renderOptions)
  = Some count.
Proof. reflexivity. Qed.

Lemma waitForAll_counts_the_pool options desired minCapacity :
  Signals.resourceSignalCount
    (Signals.renderCreationPolicy (Signals.waitForAll options)
       (Signals.mkRender (Some desired) minCapacity))
  = Some desired.
Proof. reflexivity. Qed.

(** The outcome is decided by the quorum alone. *)
Lemma creationOutcome_failed policy signals :
  CloudFormation.creationOutcome policy signals = CloudFormation.CREATE_FAILED
  <-> (CloudFormation.successesInTime policy signals < CloudFormation.quorum policy)%Z.
Proof.
  unfold CloudFormation.creationOutcome.
  destruct (Z.leb_spec (CloudFormation.quorum policy)
              (CloudFormation.successesInTime policy signals)); split; (done || lia).
Qed.

(** No success signal in time: none is counted. *)
Lemma successesInTime_none policy signals :
  Forall (fun s => CloudFormation.success s = false
                   \/ CloudFormation.inTime policy s = false) signals ->
  CloudFormation.successesInTime policy signals = 0%Z.
Proof.
  unfold CloudFormation.successesInTime. intros H.
  induction H as [|s signals Hs _ IH]; [done|].
  rewrite filter_cons_False; [exact IH|].
  destruct Hs as [-> | ->]; rewrite ?andb_false_r; simpl; tauto.
Qed.

(** The compute pool of the stack and the creation policy rendered
    from its signals. *)
Lemma synth_creation_policy :
  exists st asg,
    synth = Ok st
    /\ autoScalingGroups st = [("AutoScalingGroup", asg)]
    /\ AutoScalingGroup.signals asg
       = Signals.waitForCount 1 (Signals.mkOptions 80 (Duration.minutes 5))
    /\ AutoScalingGroup.creationPolicy asg
       = Signals.mkPolicy 80 (Some 1%nat) (Duration.minutes 5).
Proof.
  do 2 eexists. split; [vm_compute; reflexivity|].
  repeat split; reflexivity.
Qed.

(** C3: the auto-scaling group's signals declare a minimum success
    percentage of 80 and a timeout of 5 minutes, and so does the creation
    policy rendered from them (80 percent, 300 seconds); under that policy
    the creation of the pool has failed whenever the success signals that
    arrived before the timeout are fewer than the quorum. *)
Theorem rollout_quorum_80_percent_timeout_5_minutes :
  exists st asg,
    synth = Ok st
    /\ autoScalingGroups st = [("AutoScalingGroup", asg)]
    /\ Signals.minSuccessPercentage (Signals.options (AutoScalingGroup.signals asg)) = 80%Z
    /\ Signals.timeout (Signals.options (AutoScalingGroup.signals asg)) = Duration.minutes 5
    /\ let policy := AutoScalingGroup.creationPolicy asg in
       Signals.minSuccessfulInstancesPercent policy = 80%Z
       /\ Duration.toSeconds (Signals.resourceSignalTimeout policy) = 300%Z
       /\ forall signals,
            (CloudFormation.successesInTime policy signals < CloudFormation.quorum policy)%Z ->
            CloudFormation.creationOutcome policy signals = CloudFormation.CREATE_FAILED.
Proof.
  destruct synth_creation_policy as (st & asg & Hst & Hasgs & Hsignals & Hpolicy).
  exists st, asg. split; [exact Hst|]. split; [exact Hasgs|].
  rewrite Hsignals, Hpolicy. simpl.
  do 4 (split; [reflexivity|]).
  intros signals Hquorum. by apply creationOutcome_failed.
Qed.

(** A rollout whose only signal is a success arriving after 301
    seconds: it misses the quorum and the creation has failed. *)
Lemma rollout_late_signal_fails :
  exists st asg,
    synth = Ok st
    /\ autoScalingGroups st = [("AutoScalingGroup", asg)]
    /\ CloudFormation.creationOutcome (AutoScalingGroup.creationPolicy asg)
         [CloudFormation.mkSignal 301 true]
       = CloudFormation.CREATE_FAILED.
Proof.
  destruct rollout_quorum_80_percent_timeout_5_minutes
    as (st & asg & Hst & Hasgs & _ & _ & _ & _ & Hfail).
  exists st, asg. split; [exact Hst|]. split; [exact Hasgs|].
  apply (Hfail [CloudFormation.mkSignal 301 true]).
  destruct synth_creation_policy as (st' & asg' & Hst' & Hasgs' & _ & Hpolicy).
  rewrite Hst in Hst'. injection Hst' as <-.
  rewrite Hasgs in Hasgs'. injection Hasgs' as <-.
  rewrite Hpolicy. reflexivity.
Defined.

(** Under the stack's policy the quorum is one success signal, and in
    time means within 300 seconds: a rollout whose every signal is a
    failure or late has failed, and one with a success signal in time has
    not. *)
Lemma rollout_without_timely_success_fails st asg signals :
  synth = Ok st ->
  (("AutoScalingGroup", asg) ∈ autoScalingGroups st) ->
  Forall (fun s => CloudFormation.success s = false
                   \/ (300 < CloudFormation.arrival s)%Z) signals ->
  CloudFormation.creationOutcome (AutoScalingGroup.creationPolicy asg) signals
  = CloudFormation.CREATE_FAILED.
Proof.
  intros Hst Hasg Hlate.
  destruct synth_creation_policy as (st' & asg' & Hst' & Hasgs & _ & Hpolicy).
  rewrite Hst in Hst'. injection Hst' as <-.
  rewrite Hasgs in Hasg. apply list_elem_of_singleton in Hasg. injection Hasg as <-.
  rewrite Hpolicy. apply creationOutcome_failed.
  rewrite successesInTime_none; [reflexivity|].
  eapply Forall_impl; [exact Hlate|]. intros s [?|Hs]; [by left | right].
  unfold CloudFormation.inTime. simpl. apply Z.leb_gt. exact Hs.
Qed.

Lemma rollout_with_timely_success_completes st asg s signals :
  synth = Ok st ->
  (("AutoScalingGroup", asg) ∈ autoScalingGroups st) ->
  CloudFormation.success s = true ->
  (CloudFormation.arrival s <= 300)%Z ->
  CloudFormation.creationOutcome (AutoScalingGroup.creationPolicy asg) (s :: signals)
  = CloudFormation.CREATE_COMPLETE.
Proof.
  intros Hst Hasg Hok Hintime.
  destruct synth_creation_policy as (st' & asg' & Hst' & Hasgs & _ & Hpolicy).
  rewrite Hst in Hst'. injection Hst' as <-.
  rewrite Hasgs in Hasg. apply list_elem_of_singleton in Hasg. injection Hasg as <-.
  rewrite Hpolicy. unfold CloudFormation.creationOutcome, CloudFormation.successesInTime.
  rewrite filter_cons_True.
  - simpl length. rewrite Nat2Z.inj_succ.
    destruct (Z.leb_spec
                (CloudFormation.quorum (Signals.mkPolicy 80 (Some 1%nat) (Duration.minutes 5)))
                (Z.succ (Z.of_nat (length
                   (filter (fun s0 => CloudFormation.success s0
                      && CloudFormation.inTime
                           (Signals.mkPolicy 80 (Some 1%nat) (Duration.minutes 5)) s0)
                      signals))))) as [|Hlt]; [done|].
    change (CloudFormation.quorum _) with 1%Z in Hlt. lia.
  - rewrite Hok. simpl. unfold CloudFormation.inTime. simpl.
    apply Is_true_true, Z.leb_le. exact Hintime.
Qed.

(** C9: the rollout waits for a signal count of exactly 1.  The signals
    are [waitForCount 1] with the 80 percent quorum, and the count rendered
    into the creation policy is 1 whatever capacities the group has. *)
Theorem rollout_waits_for_one_signal :
  exists st asg options,
    synth = Ok st
    /\ autoScalingGroups st = [("AutoScalingGroup", asg)]
    /\ AutoScalingGroup.signals asg = Signals.waitForCount 1 options
    /\ Signals.minSuccessPercentage options = 80%Z
    /\ Signals.resourceSignalCount (AutoScalingGroup.creationPolicy asg) = Some 1%nat
    /\ forall renderOptions,
         let policy := Signals.renderCreationPolicy (AutoScalingGroup.signals asg)
                         renderOptions in
         Signals.resourceSignalCount policy = Some 1%nat
         /\ Signals.minSuccessfulInstancesPercent policy = 80%Z.
Proof.
  destruct synth_creation_policy as (st & asg & Hst & Hasgs & Hsignals & Hpolicy).
  exists st, asg, (Signals.mkOptions 80 (Duration.minutes 5)).
  split; [exact Hst|]. split; [exact Hasgs|]. split; [exact Hsignals|].
  split; [reflexivity|]. split; [by rewrite Hpolicy|].
  intros renderOptions policy. subst policy. rewrite Hsignals.
  split; [apply waitForCount_ignores_capacity | reflexivity].
Qed.

(* ================================================================== *)
(** ** The compute pool: bootstrap recipe *)

(** The declared elements of a recipe made by [fromElements] are its
    arguments. *)
Lemma declaredElements_fromElements elements :
  CloudFormationInit.declaredElements (CloudFormationInit.fromElements elements) = elements.
Proof.
  unfold CloudFormationInit.declaredElements, CloudFormationInit.configsRun,
    CloudFormationInit.fromElements, CloudFormationInit.fromConfig,
    CloudFormationInit.fromConfigSets.
  cbn. rewrite bool_decide_eq_true_2 by done.
  cbn. by rewrite app_nil_r.
Qed.

(** Applying a config neither drops nor adds an element of the four
    types the stack uses: it only regroups them. *)
Lemma applied_keeps_every_element config e :
  e ∈ InitConfig.applied config <-> e ∈ InitConfig.elements config.
Proof.
  unfold InitConfig.applied, InitElementType.processingOrder.
  rewrite list_elem_of_bind. split.
  - intros (type & Hin & _). by apply list_elem_of_filter in Hin as [_ Hin].
  - intros Hin. exists (elementType e). split.
    + by apply list_elem_of_filter.
    + destruct e; simpl; repeat (apply list_elem_of_here || apply list_elem_of_further).
Qed.

(** C7 as stated fails: the steps of the recipe are not applied in the
    order package, command, file, service.  They are applied by type, and
    the file is placed before the command is run. *)
Lemma bootstrap_file_is_placed_before_the_command_runs :
  exists st asg,
    synth = Ok st
    /\ autoScalingGroups st = [("AutoScalingGroup", asg)]
    /\ elementType <$> CloudFormationInit.appliedSteps (AutoScalingGroup.init asg)
       = [InitElementType.PACKAGE; InitElementType.FILE;
          InitElementType.COMMAND; InitElementType.SERVICE]
    /\ elementType <$> CloudFormationInit.appliedSteps (AutoScalingGroup.init asg)
       <> [InitElementType.PACKAGE; InitElementType.COMMAND;
           InitElementType.FILE; InitElementType.SERVICE].
Proof.
  do 2 eexists. split; [vm_compute; reflexivity|].
  do 2 (split; [reflexivity|]).
  discriminate.
Qed.

(** C7, amended: the bootstrap recipe declares exactly four elements,
    given in this order: the yum package nginx; the shell command that
    installs php and the other tools; the file /etc/nginx/conf.d/laravel.conf,
    taken from the asset cfninit/laravel.conf; and the service nginx,
    enabled and kept running, with a restart handle that nothing triggers.
    They are applied by type: the package, then the file, then the command,
    then the service; so the package is installed before the service is
    enabled. *)
Theorem bootstrap_recipe_declares_four_elements_applied_by_type :
  exists st asg package command file service handle,
    synth = Ok st
    /\ autoScalingGroups st = [("AutoScalingGroup", asg)]
    /\ CloudFormationInit.declaredElements (AutoScalingGroup.init asg)
       = [Package package; Command command; File file; Service service]
    /\ InitPackage.type package = "yum"
    /\ InitPackage.packageName package = "nginx"
    /\ InitPackage.versions package = []
    /\ command = InitCommand.shell
         "sudo yum install php php-fpm php-xml php-mbstring php-zip php-bcmath php-tokenizer ruby wget sqlite -y"
    /\ InitFile.fileName file = "/etc/nginx/conf.d/laravel.conf"
    /\ InitFile.content file = InitFile.asset "cfninit/laravel.conf"
    /\ InitService.serviceName service = "nginx"
    /\ InitService.enabled (InitService.options service) = Some true
    /\ InitService.ensureRunning (InitService.options service) = Some true
    /\ InitService.serviceRestartHandle (InitService.options service) = Some handle
    /\ handle = InitServiceRestartHandle.make [] [] [] []
    /\ CloudFormationInit.appliedSteps (AutoScalingGroup.init asg)
       = [Package package; File file; Command command; Service service]
    /\ (exists i j,
          CloudFormationInit.appliedSteps (AutoScalingGroup.init asg) !! i
          = Some (Package package)
          /\ CloudFormationInit.appliedSteps (AutoScalingGroup.init asg) !! j
             = Some (Service service)
          /\ (i < j)%nat).
Proof.
  do 7 eexists. split; [vm_compute; reflexivity|].
  do 14 (split; [reflexivity|]).
  exists 0%nat, 3%nat.
  split; [reflexivity|]. split; [reflexivity | lia].
Qed.

(* ================================================================== *)
(** ** Other package lists *)

Lemma yum_bindError name :
  InitPackage.bindError InitPlatform.LINUX (InitPackage.yum name)
  = if bool_decide (name = "")
    then Some "Package name must be specified for all package types besides RPM and MSI."
    else None.
Proof.
  unfold InitPackage.bindError, InitPackage.yum. simpl.
  by destruct (bool_decide (name = "")).
Qed.

(** A recipe of yum packages followed by elements that bind fails to
    bind exactly when one of the package names is empty. *)
Lemma recipe_bindError packages rest sets name :
  Forall (fun e => elementBindError InitPlatform.LINUX e = None) rest ->
  CloudFormationInit.bindError InitPlatform.LINUX
    (CloudFormationInit.make sets
       [(name, InitConfig.make ((Package ∘ InitPackage.yum <$> packages) ++ rest))])
  = if bool_decide ("" ∈ packages)
    then Some "Package name must be specified for all package types besides RPM and MSI."
    else None.
Proof.
  intros Hrest. unfold CloudFormationInit.bindError. simpl. rewrite app_nil_r.
  induction packages as [|p packages IH].
  - simpl. induction Hrest as [|e rest He _ IH]; [done|].
    csimpl. by rewrite He.
  - csimpl. rewrite yum_bindError.
    destruct (decide (p = "")) as [->|Hp].
    + rewrite (bool_decide_eq_true_2 ("" = "")) by done.
      by rewrite (bool_decide_eq_true_2 ("" ∈ "" :: packages)) by apply list_elem_of_here.
    + rewrite (bool_decide_eq_false_2 (p = "")) by done. rewrite IH.
      rewrite (bool_decide_ext ("" ∈ p :: packages) ("" ∈ packages)); [done|].
      rewrite elem_of_cons. split; [intros [?|?]; [congruence | done] | by right].
Qed.

(** The constructor throws when a package name is empty, and only
    then. *)
Lemma synth_packages_empty_name_throws packages :
  "" ∈ packages ->
  synth_packages packages
  = Throw "Package name must be specified for all package types besides RPM and MSI.".
Proof.
  intros Hin. cbv -[CloudFormationInit.bindError fmap].
  match goal with
  | |- context [CloudFormationInit.bindError ?platform ?init] =>
      replace (CloudFormationInit.bindError platform init)
        with (Some "Package name must be specified for all package types besides RPM and MSI.")
  end; [reflexivity|].
  symmetry. etransitivity; [apply recipe_bindError; by repeat constructor|].
  by rewrite bool_decide_eq_true_2.
Qed.

Lemma synth_packages_succeeds packages :
  "" ∉ packages -> exists st, synth_packages packages = Ok st.
Proof.
  intros Hin. cbv -[CloudFormationInit.bindError fmap].
  match goal with
  | |- context [CloudFormationInit.bindError ?platform ?init] =>
      replace (CloudFormationInit.bindError platform init) with (@None string)
  end; [eexists; reflexivity|].
  symmetry. etransitivity; [apply recipe_bindError; by repeat constructor|].
  by rewrite bool_decide_eq_false_2.
Qed.

(** C6: for any two package lists from which a stack is synthesized,
    the network sections of the two stacks are equal and their pipeline
    sections are equal: the package list reaches neither. *)
Theorem package_list_leaves_network_and_pipeline_unchanged packages1 packages2 st1 st2 :
  synth_packages packages1 = Ok st1 ->
  synth_packages packages2 = Ok st2 ->
  networkSection st1 = networkSection st2
  /\ pipelineSection st1 = pipelineSection st2.
Proof.
  intros H1 H2.
  cbv -[CloudFormationInit.bindError fmap] in H1, H2.
  destruct (CloudFormationInit.bindError _ _) in H1; [discriminate|].
  destruct (CloudFormationInit.bindError _ _) in H2; [discriminate|].
  injection H1 as <-. injection H2 as <-.
  split; reflexivity.
Qed.

(** The stack that installs nginx and one that installs httpd and git
    have the same network and pipeline sections. *)
Lemma nginx_and_httpd_stacks_share_network_and_pipeline :
  exists st1 st2,
    synth_packages ["nginx"] = Ok st1
    /\ synth_packages ["httpd"; "git"] = Ok st2
    /\ networkSection st1 = networkSection st2
    /\ pipelineSection st1 = pipelineSection st2.
Proof.
  do 2 eexists. split; [vm_compute; reflexivity|]. split; [vm_compute; reflexivity|].
  apply (package_list_leaves_network_and_pipeline_unchanged ["nginx"] ["httpd"; "git"]);
    reflexivity.
Defined.

(* ================================================================== *)
(** ** The access token *)

(** C8: the only secret value in the stack is the access token of the
    Source action, and it is a Secrets Manager lookup by the name
    github-token.  What the synthesized stack holds of it is the reference,
    rendered as a dynamic reference that names the secret; the stack is the
    same whatever the account's secrets are, and the value is the one the
    platform finds under that name when it resolves the reference. *)
Theorem access_token_is_only_a_secret_reference :
  exists st pipeline source rest,
    synth = Ok st
    /\ pipelines st = [("Pipeline", pipeline)]
    /\ Pipeline.stages pipeline = StageProps.make "Source" [GitHubSource source] :: rest
    /\ GitHubSourceAction.oauthToken source = SecretValue.secretsManager "github-token"
    /\ stackSecrets st = [GitHubSourceAction.oauthToken source]
    /\ Forall (fun v => SecretValue.isReference v = true) (stackSecrets st)
    /\ SecretValue.render <$> stackSecrets st
       = ["{{resolve:secretsmanager:github-token:SecretString:::}}"]
    /\ forall secrets : CloudFormation.SecretsManager,
         CloudFormation.resolve secrets <$> stackSecrets st = [secrets "github-token"].
Proof.
  do 4 eexists. split; [vm_compute; reflexivity|].
  do 4 (split; [reflexivity|]).
  split; [by repeat constructor|].
  split; [reflexivity|].
  intros secrets. reflexivity.
Qed.

(* ================================================================== *)
(** ** The compute pool in its network *)

(** X3: the compute pool is wired into the one network.  The security
    group and the auto-scaling group name the same VPC, the stack's only
    one; the group's launch template is the stack's only launch template,
    and through it the instances get the stack's only security group (with
    the three ingress rules added to it), the key pair and the instance
    role; the subnet type the group selects (public) is a type the VPC
    configures. *)
Theorem compute_pool_is_wired_into_the_network :
  exists st vpc group asg template keyPair role,
    synth = Ok st
    /\ vpcs st = [("VPC", vpc)]
    /\ securityGroups st = [("SecurityGroup", group)]
    /\ launchTemplates st = [("LaunchTemplate", template)]
    /\ autoScalingGroups st = [("AutoScalingGroup", asg)]
    /\ AutoScalingGroup.vpc asg = SecurityGroup.vpc (SecurityGroup.props group)
    /\ deref st (AutoScalingGroup.vpc asg) = Some (AVpc vpc)
    /\ deref st (AutoScalingGroup.launchTemplate asg) = Some (ALaunchTemplate template)
    /\ deref st (LaunchTemplate.securityGroup template) = Some (ASecurityGroup group)
    /\ length (SecurityGroup.directIngressRules group) = 3%nat
    /\ deref st (LaunchTemplate.keyPair template) = Some (AKeyPair keyPair)
    /\ deref st (LaunchTemplate.role template) = Some (ARole role)
    /\ SubnetSelection.subnetType (AutoScalingGroup.vpcSubnets asg)
       ∈ SubnetConfiguration.subnetType <$> Vpc.subnetConfiguration vpc.
Proof.
  do 7 eexists. split; [vm_compute; reflexivity|].
  do 11 (split; [reflexivity|]).
  apply list_elem_of_here.
Qed.

(** X4: the instances and the pipeline run under roles that different
    services assume.  The stack declares two roles, under different ids.
    The launch template's is declared assumable by the EC2 service, and by
    nothing else; the pipeline's by the CodeBuild and CodePipeline
    services, and by nothing else; no service principal is trusted by
    both. *)
Theorem instance_role_and_pipeline_role_trust_different_services :
  exists st template pipeline instanceRole pipelineRole,
    synth = Ok st
    /\ launchTemplates st = [("LaunchTemplate", template)]
    /\ pipelines st = [("Pipeline", pipeline)]
    /\ roles st = [(path (LaunchTemplate.role template), instanceRole);
                   (path (Pipeline.role pipeline), pipelineRole)]
    /\ path (LaunchTemplate.role template) <> path (Pipeline.role pipeline)
    /\ Role.assumedBy instanceRole = [ServicePrincipal.make "ec2.amazonaws.com"]
    /\ Role.assumedBy pipelineRole
       = [ServicePrincipal.make "codebuild.amazonaws.com";
          ServicePrincipal.make "codepipeline.amazonaws.com"]
    /\ Forall (fun principal => principal ∉ Role.assumedBy pipelineRole)
              (Role.assumedBy instanceRole).
Proof.
  do 5 eexists. split; [vm_compute; reflexivity|].
  do 3 (split; [reflexivity|]).
  split; [discriminate|].
  do 2 (split; [reflexivity|]).
  apply (bool_decide_unpack _). by vm_compute.
Qed.

(* ================================================================== *)
(** ** The pipeline's stages *)

(** When the check passes, what a stage consumes was available at the
    start or is produced by a stage before it. *)
Lemma artifactsFlowForward_sound available stages i stage a :
  artifactsFlowForward available stages = true ->
  stages !! i = Some stage ->
  a ∈ stageInputs stage ->
  a ∈ available
  \/ exists j producer,
       (j < i)%nat /\ stages !! j = Some producer /\ a ∈ stageOutputs producer.
Proof.
  revert available i.
  induction stages as [|stage0 stages IH]; intros available i Hall Hi Ha; [done|].
  simpl in Hall. apply andb_true_iff in Hall as [Hhere Hrest].
  destruct i as [|i]; simpl in Hi.
  - injection Hi as ->. left.
    rewrite forallb_forall in Hhere.
    apply list_elem_of_In, Hhere in Ha. by apply bool_decide_eq_true in Ha.
  - destruct (IH _ _ Hrest Hi Ha) as [Hin | (j & producer & Hlt & Hj & Hout)].
    + apply elem_of_app in Hin as [Hin | Hin]; [by left | right].
      exists 0%nat, stage0. split; [lia | by split].
    + right. exists (S j), producer. split; [lia | by split].
Qed.

(** X5: artifacts flow forward through the pipeline.  Whatever an
    action consumes is produced by an action of an earlier stage; no
    artifact is produced twice; and every artifact that is produced is
    consumed. *)
Theorem artifacts_flow_forward :
  exists st pipeline,
    synth = Ok st
    /\ pipelines st = [("Pipeline", pipeline)]
    /\ (forall i stage a,
          Pipeline.stages pipeline !! i = Some stage ->
          a ∈ stageInputs stage ->
          exists j producer,
            (j < i)%nat
            /\ Pipeline.stages pipeline !! j = Some producer
            /\ a ∈ stageOutputs producer)
    /\ NoDup (Pipeline.stages pipeline ≫= stageOutputs)
    /\ Forall (fun a => a ∈ Pipeline.stages pipeline ≫= stageInputs)
              (Pipeline.stages pipeline ≫= stageOutputs).
Proof.
  do 2 eexists. split; [vm_compute; reflexivity|].
  split; [reflexivity|]. split; [| split].
  - intros i stage a Hi Ha.
    match type of Hi with
    | ?stages !! _ = _ =>
        destruct (artifactsFlowForward_sound [] stages i stage a) as [Hnil | Hfound]
    end; [reflexivity | exact Hi | exact Ha | | exact Hfound].
    by apply elem_of_nil in Hnil.
  - apply (bool_decide_unpack _). by vm_compute.
  - apply (bool_decide_unpack _). by vm_compute.
Qed.

(** What the Deploy stage (the third) consumes is produced by a stage
    before it. *)
Lemma deploy_input_is_produced_earlier :
  exists st pipeline j producer,
    synth = Ok st
    /\ pipelines st = [("Pipeline", pipeline)]
    /\ (j < 2)%nat
    /\ Pipeline.stages pipeline !! j = Some producer
    /\ Artifact.make "BuildArtifact" ∈ stageOutputs producer.
Proof.
  destruct artifacts_flow_forward as (st & pipeline & Hst & Hpipeline & Hflow & _).
  pose proof Hst as Hst'. vm_compute in Hst'. injection Hst' as <-.
  pose proof Hpipeline as Hp'. vm_compute in Hp'. injection Hp' as <-.
  edestruct (Hflow 2%nat) as (j & producer & Hlt & Hj & Hout).
  - reflexivity.
  - apply list_elem_of_here.
  - eexists _, _, j, producer. split; [exact Hst|]. split; [exact Hpipeline|].
    split; [exact Hlt|]. split; [exact Hj | exact Hout].
Defined.

(** X6: the shape of the pipeline.  It has a first stage and at least
    one more; no stage is empty; the actions of the first stage, and only
    they, are source actions; the stages have pairwise distinct names, and
    so have the actions of each stage. *)
Theorem only_the_first_stage_pulls_source :
  exists st pipeline first rest,
    synth = Ok st
    /\ pipelines st = [("Pipeline", pipeline)]
    /\ Pipeline.stages pipeline = first :: rest
    /\ (1 <= length rest)%nat
    /\ Forall (fun stage => (1 <= length (StageProps.actions stage))%nat)
              (Pipeline.stages pipeline)
    /\ Forall (fun action => actionCategory action = ActionCategory.SOURCE)
              (StageProps.actions first)
    /\ Forall (fun stage =>
                 Forall (fun action => actionCategory action <> ActionCategory.SOURCE)
                        (StageProps.actions stage))
              rest
    /\ NoDup (StageProps.stageName <$> Pipeline.stages pipeline)
    /\ Forall (fun stage => NoDup (actionName <$> StageProps.actions stage))
              (Pipeline.stages pipeline).
Proof.
  do 4 eexists. split; [vm_compute; reflexivity|].
  do 2 (split; [reflexivity|]).
  split; [simpl; lia|].
  split; [repeat constructor|].
  split; [repeat constructor|].
  split; [repeat constructor; discriminate|].
  split; apply (bool_decide_unpack _); by vm_compute.
Qed.

(* ================================================================== *)
(** ** The build project *)

(** A field that is not there reads as [None], and so does everything
    below it. *)
Lemma fieldAt_missing keys key rest j :
  fieldAt keys j = None -> fieldAt (keys ++ key :: rest) j = None.
Proof.
  unfold fieldAt. rewrite foldl_app. intros ->. simpl.
  induction rest as [|k rest IH]; [done | exact IH].
Qed.

(** X7: the build recipe.  The Build action runs the stack's only
    build project, on the Amazon Linux 2 (5.0) image.  Its build
    specification has version 0.2 and the sections version, phases and
    artifacts; there are two phases, install and build, and no other (no
    pre_build, no post_build), and no env section.  The install phase pins
    nodejs 20.x and php 8.3 and runs three commands in this order: npm
    install, the download of Composer, and then Composer's install; the
    build phase runs npm run build; every file under the base directory ./
    is the output. *)
Theorem build_project_runs_install_then_build :
  exists st pipeline stage action project spec,
    synth = Ok st
    /\ pipelines st = [("Pipeline", pipeline)]
    /\ Pipeline.stages pipeline !! 1%nat = Some stage
    /\ StageProps.actions stage = [CodeBuild action]
    /\ deref st (CodeBuildAction.project action) = Some (APipelineProject project)
    /\ pipelineProjects st = [(path (CodeBuildAction.project action), project)]
    /\ BuildEnvironment.buildImage (PipelineProject.environment project)
       = LinuxBuildImage.AMAZON_LINUX_2_5
    /\ spec = specOf (PipelineProject.buildSpec project)
    /\ keysOf spec = Some ["version"; "phases"; "artifacts"]
    /\ field "version" spec ≫= asString = Some "0.2"
    /\ field "phases" spec ≫= keysOf = Some ["install"; "build"]
    /\ fieldAt ["phases"; "pre_build"] spec = None
    /\ fieldAt ["phases"; "post_build"] spec = None
    /\ field "env" spec = None
    /\ fieldAt ["phases"; "install"; "runtime-versions"] spec ≫= keysOf
       = Some ["nodejs"; "php"]
    /\ fieldAt ["phases"; "install"; "runtime-versions"; "nodejs"] spec ≫= asString
       = Some "20.x"
    /\ fieldAt ["phases"; "install"; "runtime-versions"; "php"] spec ≫= asString
       = Some "8.3"
    /\ fieldAt ["phases"; "install"; "commands"] spec ≫= asStrings
       = Some ["npm install";
               "curl -sS https://getcomposer.org/installer | php";
               "php composer.phar install --no-dev --optimize-autoloader"]
    /\ fieldAt ["phases"; "build"; "commands"] spec ≫= asStrings
       = Some ["npm run build"]
    /\ fieldAt ["artifacts"; "base-directory"] spec ≫= asString = Some "./"
    /\ fieldAt ["artifacts"; "files"] spec ≫= asStrings = Some ["**/*"].
Proof.
  do 6 eexists. split; [vm_compute; reflexivity|].
  do 7 (split; [reflexivity|]).
  repeat split; reflexivity.
Qed.
